(** * climate-alerts: the fetch / process / train / predict / notify pipeline

    A shallow embedding of [src/main.py] and the properties of its
    specification.

    Modelling conventions.
    - The estimator of [sklearn] is a parameter of the development: [fit]
      stands for [LinearRegression().fit] and [predict] for [model.predict].
      Nothing is assumed of them beyond their types; in particular [fit] may
      raise on any input.  Every theorem of the pipeline is proved for an
      arbitrary estimator, so it holds of the library's float64
      implementation as far as its results are finite numbers.  An exact
      least-squares estimator ([exact_fit], [exact_predict]) is defined only
      to exhibit concrete runs.
    - Numbers are the rationals that the decoded values denote ([Q]).
    - The provider's response body is a JSON array whose elements are JSON
      objects (records) or something else.  In a record the key [date] may be
      absent and, when present, holds a string or a number; the key
      [risk_factor] may be absent and, when present, holds a number (the
      contract of the provider).  Other keys are never read by the code.
    - Python exceptions are an error monad over a trace of observable
      events: lines written to standard output, HTTP requests issued, and
      entries into the stage functions.  [print], [requests.get] and
      [requests.post] append to the trace; the trace survives a raised
      exception, as output already written does. *)

From Stdlib Require Import List String ZArith QArith Qfield Lia Lqa Bool Arith.
Import ListNotations.
Local Open Scope string_scope.
Local Open Scope list_scope.
Local Open Scope Q_scope.

(** ** Data model *)

(** The value of a [date] field: a string or an ordinal number. *)
Inductive token : Type :=
| TStr (s : string)
| TNum (q : Q).

(** A JSON object of the response; [None] is an absent key. *)
Record record : Type := mkRecord {
  date : option token;
  risk_factor : option Q
}.

(** An element of the response array: an object, or any other JSON value
    (number, string, array, null), on which subscripting by a string key
    raises [TypeError]. *)
Inductive element : Type :=
| Object (r : record)
| NonObject.

(** [numpy] arrays are sequences with a length, all of whose entries have
    one type. *)
Definition ndarray (A : Type) : Type := list A.
Definition len {A : Type} (a : ndarray A) : nat := List.length a.

(** An entry of the array built from the dates: a number, a string, or the
    string [numpy] writes for a number. *)
Inductive cell : Type :=
| CNum (q : Q)
| CStr (s : string)
| CNumStr (q : Q).

Definition is_number (d : token) : bool :=
  match d with
  | TNum _ => true
  | TStr _ => false
  end.

(** [np.array(dates)]: a numeric array when every date is a number;
    otherwise an array of strings, in which the numbers are held as
    strings. *)
Definition np_array_dates (dates : list token) : ndarray cell :=
  if forallb is_number dates
  then map (fun d => match d with TNum q => CNum q | TStr s => CStr s end)
         dates
  else map (fun d => match d with TNum q => CNumStr q | TStr s => CStr s end)
         dates.

(** [np.array(risk_factors)], on a list of numbers: the numeric array of
    these numbers. *)
Definition np_array_numbers (risk_factors : list Q) : ndarray Q :=
  risk_factors.

(** The fitted estimator: [coef_] (one feature) and [intercept_]. *)
Record LinearRegression : Type := mkModel {
  coef_ : Q;
  intercept_ : Q
}.

(** The f-string of [send_notification], kept structured:
    [Climate alert for {location}: Forecasted risk is {forecast}]. *)
Record alert : Type := mkAlert {
  alert_location : string;
  alert_forecast : Q
}.

(** ** Exceptions, events and the monad *)

Inductive exn : Type :=
| HTTPError (status : Z)
| ConnectionError
| JSONDecodeError
| KeyError (key : string)
| TypeError
| ValueError.

(** One constructor per [print] statement of the source, carrying the
    interpolated values. *)
Inductive line : Type :=
| HttpErrorOccurred (err : exn)          (* HTTP error occurred: ... *)
| OtherErrorOccurred (err : exn)         (* Other error occurred: ... *)
| MissingField (err : exn)               (* Missing expected data field: ... *)
| ErrorProcessing (err : exn)            (* Error processing data: ... *)
| ErrorTraining (err : exn)              (* Error during model training: ... *)
| NotificationSent                       (* Notification sent successfully! *)
| HttpErrorNotification (err : exn)      (* HTTP error during notification: ... *)
| OtherErrorNotification (err : exn)     (* Other error occurred during notification: ... *)
| Fetching (location : string)           (* Fetching climate data for ...... *)
| ProcessingData                         (* Processing data... *)
| TrainingModel                          (* Training model... *)
| Forecasted (forecast : Q)              (* Forecasted risk for next date: ... *)
| SendingNotification                    (* Sending notification... *)
| TrainingFailed                         (* Model training failed. *)
| ProcessingFailed                       (* Data processing failed. *)
| FetchFailed.                           (* Failed to fetch climate data. *)

Inductive request : Type :=
| GET (url : string) (location : string)
| POST (url : string) (message : alert).

(** Entries into the stages; these are ghost events, absent from the
    program's output, that record which function was invoked. *)
Inductive stage : Type :=
| Fetch (location : string)
| Process
| Train
| Predict (position : Q)
| Notify (location : string) (forecast : Q).

Inductive event : Type :=
| Stdout (l : line)
| Http (r : request)
| Call (s : stage).

Definition trace : Type := list event.

(** A computation runs on the trace so far and ends normally ([inr]) or
    with a raised exception ([inl]); the trace is kept either way. *)
Definition M (A : Type) : Type := trace -> (exn + A) * trace.

Definition ret {A : Type} (a : A) : M A := fun t => (inr a, t).

Definition bind {A B : Type} (m : M A) (k : A -> M B) : M B :=
  fun t =>
    match m t with
    | (inl e, t') => (inl e, t')
    | (inr a, t') => k a t'
    end.

Definition raise {A : Type} (e : exn) : M A := fun t => (inl e, t).

(** [try: body except Exception as err: handler err]. *)
Definition try_except {A : Type} (body : M A) (handler : exn -> M A) : M A :=
  fun t =>
    match body t with
    | (inl e, t') => handler e t'
    | (inr a, t') => (inr a, t')
    end.

(** A call into a library that touches nothing observable. *)
Definition lift {A : Type} (r : exn + A) : M A := fun t => (r, t).

Definition emit (ev : event) : M unit := fun t => (inr tt, t ++ [ev]).
Definition print (l : line) : M unit := emit (Stdout l).
Definition enter (s : stage) : M unit := emit (Call s).

Declare Scope py_scope.
Delimit Scope py_scope with py.
Notation "x <- m ;; k" := (bind m (fun x => k))
  (at level 61, m at next level, right associativity) : py_scope.
Notation "m ;; k" := (bind m (fun _ => k))
  (at level 61, right associativity) : py_scope.
Local Open Scope py_scope.

(** ** The HTTP client ([requests]) *)

(** The body of a response, as [response.json()] sees it: text that is not
    JSON, or a JSON array.  Bodies that decode to something else ([null], an
    object, a scalar) are not represented: the statements below speak of
    answers of these two kinds only. *)
Inductive body : Type :=
| Malformed                      (* not JSON *)
| Records (l : list element).    (* a JSON array *)

(** What the outside world answers to a request: no answer at all (any
    transport failure), or a response with a status code and a body. *)
Inductive reply : Type :=
| Unreachable
| Response (status_code : Z) (content : body).

Definition network : Type := request -> reply.

Record response : Type := mkResponse {
  status_code : Z;
  content : body
}.

Definition send (net : network) (r : request) : M response :=
  emit (Http r) ;;
  match net r with
  | Unreachable => raise ConnectionError
  | Response s b => ret (mkResponse s b)
  end.

Definition requests_get (net : network) (url location : string) : M response :=
  send net (GET url location).

Definition requests_post (net : network) (url : string) (message : alert)
  : M response :=
  send net (POST url message).

(** The statuses on which [Response.raise_for_status] raises: client
    errors (4xx) and server errors (5xx). *)
Definition is_error_status (s : Z) : bool :=
  ((400 <=? s) && (s <? 600))%Z.

(** [Response.raise_for_status]: [HTTPError] on an error status; every
    other status passes. *)
Definition raise_for_status (r : response) : M unit :=
  if is_error_status (status_code r)
  then raise (HTTPError (status_code r))
  else ret tt.

Definition response_json (r : response) : M (list element) :=
  match content r with
  | Malformed => raise JSONDecodeError
  | Records l => ret l
  end.

(** ** The stages that do not involve the estimator ([src/main.py]) *)

Definition API_ENDPOINT : string := "https://api.mockclimate.com/v1/getdata".
Definition NOTIFICATION_ENDPOINT : string :=
  "https://api.mocknotifications.com/send".

(** What [fetch_climate_data] hands to its caller: Python's [None] or the
    decoded array. *)
Definition raw : Type := option (list element).

(** [fetch_climate_data] (main.py, lines 22-33): one GET, the status
    check, the decoding; the two [except] clauses print and fall through to
    [return None]. *)
Definition fetch_climate_data (net : network) (location : string) : M raw :=
  enter (Fetch location) ;;
  try_except
    (response <- requests_get net API_ENDPOINT location ;;
     raise_for_status response ;;
     data <- response_json response ;;
     ret (Some data))
    (fun err =>
       match err with
       | HTTPError _ => print (HttpErrorOccurred err)
       | _ => print (OtherErrorOccurred err)
       end ;;
       ret None).

(** [entry[key]]: [TypeError] on a non-object, [KeyError] on an absent
    key. *)
Definition getitem {A : Type} (entry : element) (field : record -> option A)
    (key : string) : M A :=
  match entry with
  | NonObject => raise TypeError
  | Object r =>
      match field r with
      | Some v => ret v
      | None => raise (KeyError key)
      end
  end.

(** The [for entry in raw_data] loop (lines 42-44), with the two
    accumulators [dates] and [risk_factors]; [entry['date']] is read
    first. *)
Fixpoint collect (raw_data : list element) (dates : list token)
    (risk_factors : list Q) : M (list token * list Q) :=
  match raw_data with
  | [] => ret (dates, risk_factors)
  | entry :: rest =>
      d <- getitem entry date "date" ;;
      r <- getitem entry risk_factor "risk_factor" ;;
      collect rest (dates ++ [d]) (risk_factors ++ [r])
  end.

(** Iterating [None] raises [TypeError]. *)
Definition iterate (raw_data : raw) : M (list element) :=
  match raw_data with
  | None => raise TypeError
  | Some l => ret l
  end.

(** [process_data] (lines 35-50): the loop, then the two lists turned into
    arrays; [KeyError] and every other exception print their diagnostic and
    fall through to [return None, None]. *)
Definition process_data (raw_data : raw)
  : M (option (ndarray cell) * option (ndarray Q)) :=
  enter Process ;;
  try_except
    (entries <- iterate raw_data ;;
     lists <- collect entries [] [] ;;
     ret (Some (np_array_dates (fst lists)),
          Some (np_array_numbers (snd lists))))
    (fun err =>
       match err with
       | KeyError _ => print (MissingField err)
       | _ => print (ErrorProcessing err)
       end ;;
       ret (None, None)).

(** [send_notification] (lines 66-76): one POST and the status check; both
    [except] clauses print and the function returns. *)
Definition send_notification (net : network) (location : string)
    (forecast : Q) : M unit :=
  enter (Notify location forecast) ;;
  try_except
    (let message := mkAlert location forecast in
     response <- requests_post net NOTIFICATION_ENDPOINT message ;;
     raise_for_status response ;;
     print NotificationSent)
    (fun err =>
       match err with
       | HTTPError _ => print (HttpErrorNotification err)
       | _ => print (OtherErrorNotification err)
       end).

(** Python truthiness of the fetched value: [None] and the empty list are
    false. *)
Definition truthy (raw_data : raw) : bool :=
  match raw_data with
  | Some (_ :: _) => true
  | _ => false
  end.

Definition LOCATION : string := "New York".

(** The process exits with status 0 when [main] returns, and with status 1
    when an exception escapes it. *)
Definition exit_status (r : exn + unit) : Z :=
  match r with
  | inr _ => 0%Z
  | inl _ => 1%Z
  end.

Definition Qnat (n : nat) : Q := inject_Z (Z.of_nat n).

(** [np.arange(n)], the single feature column. *)
Definition np_arange (n : nat) : list Q := map Qnat (seq 0 n).

(** ** An exact estimator, for concrete runs *)

(** Least squares in exact arithmetic: what the library's estimator
    approximates in float64.  It serves only to run the pipeline on
    concrete inputs; no property of the pipeline rests on it. *)
Definition Qsum (l : list Q) : Q := fold_right Qplus 0 l.

Definition mean (l : list Q) : Q := Qsum l / Qnat (List.length l).

Definition center (l : list Q) : list Q :=
  let m := mean l in map (fun v => v - m) l.

Definition dot (u v : list Q) : Q :=
  Qsum (map (fun p => fst p * snd p) (combine u v)).

Definition lstsq (x y : list Q) : Q :=
  let sxx := dot x x in
  if Qeq_bool sxx 0 then 0 else dot x y / sxx.

Definition exact_fit (X y : list Q) : exn + LinearRegression :=
  if negb (List.length X =? List.length y)%nat then inl ValueError
  else if (List.length X =? 0)%nat then inl ValueError
  else
    let X_offset := mean X in
    let y_offset := mean y in
    let coef := lstsq (center X) (center y) in
    inr (mkModel coef (y_offset - X_offset * coef)).

Definition exact_predict (model : LinearRegression) (x : Q) : Q :=
  x * coef_ model + intercept_ model.

(** An estimator that rejects every input. *)
Definition failing_fit (X y : list Q) : exn + LinearRegression :=
  inl ValueError.

(** ** Sample inputs *)

Definition obs (d : string) (v : Q) : element :=
  Object (mkRecord (Some (TStr d)) (Some v)).

(** The provider response of the happy path. *)
Definition sample : list element :=
  [obs "2024-01-01" 1; obs "2024-01-02" 2; obs "2024-01-03" 3].

(** A world in which the provider answers [GET] with [g] and the notifier
    answers [POST] with [p]. *)
Definition world (g p : reply) : network :=
  fun r => match r with GET _ _ => g | POST _ _ => p end.

(** ** Reading the response array *)

(** A record that carries both required fields. *)
Definition complete (e : element) : bool :=
  match e with
  | Object (mkRecord (Some _) (Some _)) => true
  | _ => false
  end.

(** A record (a JSON object) without the key [risk_factor]. *)
Definition lacks_risk_factor (e : element) : Prop :=
  exists r, e = Object r /\ risk_factor r = None.

(** The values found under a key, in input order. *)
Definition values {A : Type} (field : record -> option A) (l : list element)
  : list A :=
  flat_map
    (fun e =>
       match e with
       | Object r => match field r with Some v => [v] | None => [] end
       | NonObject => []
       end) l.

(** An element with the contents of its [date] field erased: what is left
    is the presence of the key and the [risk_factor]. *)
Definition blind (e : element) : element :=
  match e with
  | Object r =>
      Object (mkRecord (option_map (fun _ => TNum 0) (date r)) (risk_factor r))
  | NonObject => NonObject
  end.

(** The exception raised by the extraction loop on an array, if any: the
    first element that is not an object, or lacks [date], or lacks
    [risk_factor] (the keys are read in this order). *)
Fixpoint failure (l : list element) : option exn :=
  match l with
  | [] => None
  | NonObject :: _ => Some TypeError
  | Object r :: rest =>
      match date r, risk_factor r with
      | None, _ => Some (KeyError "date")
      | Some _, None => Some (KeyError "risk_factor")
      | Some _, Some _ => failure rest
      end
  end.

(** The diagnostic [process_data] prints for an exception. *)
Definition processing_diagnostic (err : exn) : line :=
  match err with
  | KeyError _ => MissingField err
  | _ => ErrorProcessing err
  end.

(** The diagnostic [send_notification] ends with, by the notifier's
    answer. *)
Definition notification_diagnostic (p : reply) : line :=
  match p with
  | Unreachable => OtherErrorNotification ConnectionError
  | Response s _ =>
      if is_error_status s then HttpErrorNotification (HTTPError s)
      else NotificationSent
  end.


(** ** Reading a trace *)

(** The stages entered, the requests issued and the lines printed, in
    order. *)
Definition calls (tr : trace) : list stage :=
  flat_map (fun e => match e with Call s => [s] | _ => [] end) tr.

Definition requests (tr : trace) : list request :=
  flat_map (fun e => match e with Http r => [r] | _ => [] end) tr.

Definition output (tr : trace) : list line :=
  flat_map (fun e => match e with Stdout l => [l] | _ => [] end) tr.

(** The events every run starts with: the announcement and the single
    request to the provider. *)
Definition opening : trace :=
  [Stdout (Fetching LOCATION); Call (Fetch LOCATION);
   Http (GET API_ENDPOINT LOCATION)].

(** The events of the processing, training, forecast and notification of
    [n] observations with forecast [f], up to the notifier's answer. *)
Definition forecasting (n : nat) (f : Q) : trace :=
  [Stdout ProcessingData; Call Process; Stdout TrainingModel; Call Train;
   Call (Predict (Qnat n)); Stdout (Forecasted f); Stdout SendingNotification;
   Call (Notify LOCATION f);
   Http (POST NOTIFICATION_ENDPOINT (mkAlert LOCATION f))].

(** A notifier answer that is a failure in the sense of the
    specification: no answer, or a status outside 200..299. *)
Definition notification_fails (p : reply) : Prop :=
  p = Unreachable \/
  exists s b, p = Response s b /\ ~ (200 <= s < 300)%Z.

(** A provider answer on which the client raises: no answer, or an error
    status. *)
Definition request_raises (g : reply) : Prop :=
  g = Unreachable \/
  exists s b, g = Response s b /\ (400 <= s < 600)%Z.

(** ** The stages that involve the estimator *)

Section Estimator.

(** [LinearRegression().fit(X, y)], returning the fitted estimator or the
    exception it raises, and [model.predict([[x]])[0]]. *)
Variable fit : list Q -> list Q -> exn + LinearRegression.
Variable predict : LinearRegression -> Q -> Q.

(** [train_model] (lines 52-64): the feature column is
    [np.arange(len(dates))]; the contents of [dates] are not read. *)
Definition train_model (dates : ndarray cell) (risk_factors : ndarray Q)
  : M (option LinearRegression) :=
  enter Train ;;
  try_except
    (let X := np_arange (len dates) in
     let y := risk_factors in
     model <- lift (fit X y) ;;
     ret (Some model))
    (fun err => print (ErrorTraining err) ;; ret None).

(** [model.predict(next_date)[0]] as called from [main]. *)
Definition model_predict (model : LinearRegression) (next_date : Q) : M Q :=
  enter (Predict next_date) ;;
  ret (predict model next_date).

(** [main] (lines 78-104).  [if raw_data:] is the truthiness test;
    [dates is not None and risk_factors is not None] is the match on the
    pair; [if model:] is the match on the option, a fitted estimator being
    truthy.  The call to [predict] stands outside any [try]. *)
Definition main (net : network) : M unit :=
  let location := LOCATION in
  print (Fetching location) ;;
  raw_data <- fetch_climate_data net location ;;
  if truthy raw_data then
    print ProcessingData ;;
    processed <- process_data raw_data ;;
    match processed with
    | (Some dates, Some risk_factors) =>
        print TrainingModel ;;
        model <- train_model dates risk_factors ;;
        match model with
        | Some model =>
            let next_date := Qnat (len dates) in
            forecast <- model_predict model next_date ;;
            print (Forecasted forecast) ;;
            print SendingNotification ;;
            send_notification net location forecast
        | None => print TrainingFailed
        end
    | _ => print ProcessingFailed
    end
  else print FetchFailed.

(** A run of the program starts on the empty trace. *)
Definition run (net : network) : (exn + unit) * trace := main net [].

(** The shapes a run can take, by what the provider, the estimator and the
    notifier answer. *)
Inductive run_shape (net : network) : (exn + unit) * trace -> Prop :=
| RunUnreachable :
    net (GET API_ENDPOINT LOCATION) = Unreachable ->
    run_shape net
      (inr tt,
       opening ++ [Stdout (OtherErrorOccurred ConnectionError);
                   Stdout FetchFailed])
| RunErrorStatus s b :
    net (GET API_ENDPOINT LOCATION) = Response s b ->
    is_error_status s = true ->
    run_shape net
      (inr tt,
       opening ++ [Stdout (HttpErrorOccurred (HTTPError s));
                   Stdout FetchFailed])
| RunMalformed s :
    net (GET API_ENDPOINT LOCATION) = Response s Malformed ->
    is_error_status s = false ->
    run_shape net
      (inr tt,
       opening ++ [Stdout (OtherErrorOccurred JSONDecodeError);
                   Stdout FetchFailed])
| RunEmpty s :
    net (GET API_ENDPOINT LOCATION) = Response s (Records []) ->
    is_error_status s = false ->
    run_shape net (inr tt, opening ++ [Stdout FetchFailed])
| RunUnprocessed s l err :
    net (GET API_ENDPOINT LOCATION) = Response s (Records l) ->
    is_error_status s = false ->
    failure l = Some err ->
    run_shape net
      (inr tt,
       opening ++ [Stdout ProcessingData; Call Process;
                   Stdout (processing_diagnostic err);
                   Stdout ProcessingFailed])
| RunUntrained s l err :
    net (GET API_ENDPOINT LOCATION) = Response s (Records l) ->
    is_error_status s = false ->
    l <> [] ->
    failure l = None ->
    fit (np_arange (List.length l)) (values risk_factor l) = inl err ->
    run_shape net
      (inr tt,
       opening ++ [Stdout ProcessingData; Call Process; Stdout TrainingModel;
                   Call Train; Stdout (ErrorTraining err);
                   Stdout TrainingFailed])
| RunNotified s l model :
    net (GET API_ENDPOINT LOCATION) = Response s (Records l) ->
    is_error_status s = false ->
    l <> [] ->
    failure l = None ->
    fit (np_arange (List.length l)) (values risk_factor l) = inr model ->
    let f := predict model (Qnat (List.length l)) in
    run_shape net
      (inr tt,
       opening ++ forecasting (List.length l) f ++
       [Stdout (notification_diagnostic
                  (net (POST NOTIFICATION_ENDPOINT (mkAlert LOCATION f))))]).

(** ** Tactics for running the embedding *)

Ltac run_py :=
  cbv [run main bind ret raise try_except lift emit print enter
       fetch_climate_data process_data train_model send_notification
       model_predict requests_get requests_post send raise_for_status
       response_json iterate truthy status_code content fst snd
       np_array_numbers len].

Ltac tidy := repeat rewrite <- app_assoc; cbn [app].

Ltac main_py := cbv [run main bind ret print emit enter model_predict truthy].

(** ** The extraction loop *)

Lemma collect_complete (l : list element) :
  forallb complete l = true ->
  forall d y t,
    collect l d y t = (inr (d ++ values date l, y ++ values risk_factor l), t).
Proof.
  induction l as [|e l IH]; intros Hc d y t.
  - cbn. now rewrite !app_nil_r.
  - cbn in Hc. apply andb_true_iff in Hc as [He Hl].
    destruct e as [[[dv|] [rv|]]|]; try discriminate.
    cbn. run_py. rewrite (IH Hl). now tidy.
Qed.

Lemma failure_complete (l : list element) :
  failure l = None <-> forallb complete l = true.
Proof.
  induction l as [|e l IH]; cbn; [tauto|].
  destruct e as [[[dv|] [rv|]]|]; cbn; try tauto; split; discriminate.
Qed.

Lemma collect_failure (l : list element) :
  forall err, failure l = Some err ->
  forall d y t, collect l d y t = (inl err, t).
Proof.
  induction l as [|e l IH]; intros err Hf d y t; [discriminate|].
  cbn in Hf.
  destruct e as [[[dv|] [rv|]]|]; cbn in *; run_py;
    try (injection Hf as <-; reflexivity).
  now apply IH.
Qed.

Lemma values_complete_length {A : Type} (field : record -> option A)
    (l : list element) :
  forallb complete l = true ->
  (forall r, complete (Object r) = true -> field r <> None) ->
  List.length (values field l) = List.length l.
Proof.
  intros Hc Hf. induction l as [|e l IH]; [reflexivity|].
  cbn in Hc. apply andb_true_iff in Hc as [He Hl].
  destruct e as [r|]; [|discriminate].
  specialize (Hf r He). unfold values in *. cbn.
  destruct (field r); [|congruence].
  cbn. f_equal. now apply IH.
Qed.

Lemma np_array_dates_length (dates : list token) :
  len (np_array_dates dates) = List.length dates.
Proof.
  unfold len, np_array_dates.
  destruct (forallb is_number dates); apply length_map.
Qed.

Lemma dates_length (l : list element) :
  forallb complete l = true ->
  len (np_array_dates (values date l)) = List.length l.
Proof.
  intros Hc. rewrite np_array_dates_length.
  apply values_complete_length; [assumption|].
  intros [[?|] [?|]]; cbn; congruence.
Qed.

Lemma risks_length (l : list element) :
  forallb complete l = true ->
  List.length (values risk_factor l) = List.length l.
Proof.
  intros Hc. apply values_complete_length; [assumption|].
  intros [[?|] [?|]]; cbn; congruence.
Qed.

Lemma lacking_is_incomplete (l : list element) :
  Exists lacks_risk_factor l -> forallb complete l = false.
Proof.
  induction 1 as [e l (r & -> & Hr)|e l _ IH]; cbn.
  - destruct r as [[?|] rf]; cbn in Hr; subst; reflexivity.
  - rewrite IH. apply andb_false_r.
Qed.




Lemma failure_after_complete (good l : list element) :
  forallb complete good = true -> failure (good ++ l) = failure l.
Proof.
  intros Hc. induction good as [|e good IH]; [reflexivity|].
  cbn in Hc. apply andb_true_iff in Hc as [He Hl].
  destruct e as [[[dv|] [rv|]]|]; try discriminate.
  cbn. now apply IH.
Qed.

(** ** The stages, step by step *)

Lemma np_arange_length (n : nat) : List.length (np_arange n) = n.
Proof. unfold np_arange. now rewrite length_map, length_seq. Qed.

Lemma is_error_status_spec (s : Z) :
  is_error_status s = true <-> (400 <= s < 600)%Z.
Proof.
  unfold is_error_status. rewrite andb_true_iff, Z.leb_le, Z.ltb_lt. tauto.
Qed.

Lemma is_error_status_false (s : Z) :
  is_error_status s = false <-> ~ (400 <= s < 600)%Z.
Proof.
  rewrite <- is_error_status_spec. destruct (is_error_status s); split;
    congruence.
Qed.

Lemma success_status_passes (s : Z) :
  (200 <= s < 300)%Z -> is_error_status s = false.
Proof. intros Hs. apply is_error_status_false. lia. Qed.

Lemma requests_app (t u : trace) : requests (t ++ u) = requests t ++ requests u.
Proof. apply flat_map_app. Qed.

Lemma calls_app (t u : trace) : calls (t ++ u) = calls t ++ calls u.
Proof. apply flat_map_app. Qed.

Lemma output_app (t u : trace) : output (t ++ u) = output t ++ output u.
Proof. apply flat_map_app. Qed.

Lemma process_data_complete (l : list element) t :
  forallb complete l = true ->
  process_data (Some l) t =
    (inr (Some (np_array_dates (values date l)),
          Some (np_array_numbers (values risk_factor l))),
     t ++ [Call Process]).
Proof.
  intros Hc. run_py. now rewrite (collect_complete l Hc).
Qed.

Lemma process_data_failure (l : list element) err t :
  failure l = Some err ->
  process_data (Some l) t =
    (inr (None, None),
     t ++ [Call Process; Stdout (processing_diagnostic err)]).
Proof.
  intros Hf. run_py. rewrite (collect_failure l err Hf).
  destruct err; tidy; reflexivity.
Qed.

Lemma train_model_fitted dates y model t :
  fit (np_arange (len dates)) y = inr model ->
  train_model dates y t = (inr (Some model), t ++ [Call Train]).
Proof. intros Hfit. run_py. fold (len dates). now rewrite Hfit. Qed.

Lemma train_model_failed dates y err t :
  fit (np_arange (len dates)) y = inl err ->
  train_model dates y t =
    (inr None, t ++ [Call Train; Stdout (ErrorTraining err)]).
Proof. intros Hfit. run_py. fold (len dates). rewrite Hfit. now tidy. Qed.

Lemma send_notification_step net location forecast t :
  send_notification net location forecast t =
    (inr tt,
     t ++ [Call (Notify location forecast);
           Http (POST NOTIFICATION_ENDPOINT (mkAlert location forecast));
           Stdout (notification_diagnostic
                     (net (POST NOTIFICATION_ENDPOINT
                             (mkAlert location forecast))))]).
Proof.
  run_py.
  destruct (net (POST NOTIFICATION_ENDPOINT (mkAlert location forecast)))
    as [|s b]; cbn [notification_diagnostic]; [now tidy|].
  destruct (is_error_status s); now tidy.
Qed.

Lemma fetch_unreachable net location t :
  net (GET API_ENDPOINT location) = Unreachable ->
  fetch_climate_data net location t =
    (inr None,
     t ++ [Call (Fetch location); Http (GET API_ENDPOINT location);
           Stdout (OtherErrorOccurred ConnectionError)]).
Proof. intros Hg. run_py. rewrite Hg. now tidy. Qed.

Lemma fetch_error_status net location s b t :
  net (GET API_ENDPOINT location) = Response s b ->
  is_error_status s = true ->
  fetch_climate_data net location t =
    (inr None,
     t ++ [Call (Fetch location); Http (GET API_ENDPOINT location);
           Stdout (HttpErrorOccurred (HTTPError s))]).
Proof. intros Hg Hs. run_py. rewrite Hg, Hs. now tidy. Qed.

Lemma fetch_malformed net location s t :
  net (GET API_ENDPOINT location) = Response s Malformed ->
  is_error_status s = false ->
  fetch_climate_data net location t =
    (inr None,
     t ++ [Call (Fetch location); Http (GET API_ENDPOINT location);
           Stdout (OtherErrorOccurred JSONDecodeError)]).
Proof. intros Hg Hs. run_py. rewrite Hg, Hs. now tidy. Qed.

Lemma fetch_records net location s l t :
  net (GET API_ENDPOINT location) = Response s (Records l) ->
  is_error_status s = false ->
  fetch_climate_data net location t =
    (inr (Some l),
     t ++ [Call (Fetch location); Http (GET API_ENDPOINT location)]).
Proof. intros Hg Hs. run_py. rewrite Hg, Hs. now tidy. Qed.

(** ** The shape of a run *)

Section Runs.

Variable net : network.

Lemma run_unreachable :
  net (GET API_ENDPOINT LOCATION) = Unreachable ->
  run net =
    (inr tt,
     opening ++ [Stdout (OtherErrorOccurred ConnectionError);
                 Stdout FetchFailed]).
Proof. intros Hg. main_py. now rewrite (fetch_unreachable net _ _ Hg). Qed.

Lemma run_error_status s b :
  net (GET API_ENDPOINT LOCATION) = Response s b ->
  is_error_status s = true ->
  run net =
    (inr tt,
     opening ++ [Stdout (HttpErrorOccurred (HTTPError s));
                 Stdout FetchFailed]).
Proof.
  intros Hg Hs. main_py. now rewrite (fetch_error_status net _ _ _ _ Hg Hs).
Qed.

Lemma run_malformed s :
  net (GET API_ENDPOINT LOCATION) = Response s Malformed ->
  is_error_status s = false ->
  run net =
    (inr tt,
     opening ++ [Stdout (OtherErrorOccurred JSONDecodeError);
                 Stdout FetchFailed]).
Proof.
  intros Hg Hs. main_py. now rewrite (fetch_malformed net _ _ _ Hg Hs).
Qed.

Lemma run_empty s :
  net (GET API_ENDPOINT LOCATION) = Response s (Records []) ->
  is_error_status s = false ->
  run net = (inr tt, opening ++ [Stdout FetchFailed]).
Proof.
  intros Hg Hs. main_py. now rewrite (fetch_records net _ _ _ _ Hg Hs).
Qed.

Lemma run_unprocessed s l err :
  net (GET API_ENDPOINT LOCATION) = Response s (Records l) ->
  is_error_status s = false ->
  failure l = Some err ->
  run net =
    (inr tt,
     opening ++ [Stdout ProcessingData; Call Process;
                 Stdout (processing_diagnostic err);
                 Stdout ProcessingFailed]).
Proof.
  intros Hg Hs Hf. main_py. rewrite (fetch_records net _ _ _ _ Hg Hs).
  destruct l as [|e l]; [discriminate|].
  now rewrite (process_data_failure _ _ _ Hf).
Qed.

Lemma run_untrained s l err :
  net (GET API_ENDPOINT LOCATION) = Response s (Records l) ->
  is_error_status s = false ->
  l <> [] ->
  failure l = None ->
  fit (np_arange (List.length l)) (values risk_factor l) = inl err ->
  run net =
    (inr tt,
     opening ++ [Stdout ProcessingData; Call Process; Stdout TrainingModel;
                 Call Train; Stdout (ErrorTraining err);
                 Stdout TrainingFailed]).
Proof.
  intros Hg Hs Hne Hf Hfit. main_py.
  rewrite (fetch_records net _ _ _ _ Hg Hs).
  destruct l as [|e l]; [congruence|].
  apply failure_complete in Hf.
  rewrite (process_data_complete _ _ Hf).
  rewrite (train_model_failed _ _ err) by now rewrite (dates_length _ Hf).
  reflexivity.
Qed.

Lemma run_notified s l model :
  net (GET API_ENDPOINT LOCATION) = Response s (Records l) ->
  is_error_status s = false ->
  l <> [] ->
  failure l = None ->
  fit (np_arange (List.length l)) (values risk_factor l) = inr model ->
  run net =
    (inr tt,
     opening ++ forecasting (List.length l)
                  (predict model (Qnat (List.length l))) ++
     [Stdout (notification_diagnostic
                (net (POST NOTIFICATION_ENDPOINT
                        (mkAlert LOCATION
                           (predict model (Qnat (List.length l)))))))]).
Proof.
  intros Hg Hs Hne Hf Hfit. main_py.
  rewrite (fetch_records net _ _ _ _ Hg Hs).
  destruct l as [|e l]; [congruence|].
  apply failure_complete in Hf.
  rewrite (process_data_complete _ _ Hf).
  pose proof (dates_length _ Hf) as Hlen.
  rewrite (train_model_fitted _ _ model) by now rewrite Hlen.
  rewrite Hlen, send_notification_step. reflexivity.
Qed.

(** Every run has one of the shapes of [run_shape]. *)
Lemma run_cases : run_shape net (run net).
Proof.
  destruct (net (GET API_ENDPOINT LOCATION)) as [|s b] eqn:Hg.
  - rewrite (run_unreachable Hg). now constructor.
  - destruct (is_error_status s) eqn:Hs.
    + rewrite (run_error_status _ _ Hg Hs). now apply RunErrorStatus with b.
    + destruct b as [|l].
      * rewrite (run_malformed _ Hg Hs). now apply RunMalformed with s.
      * destruct l as [|e l].
        { rewrite (run_empty _ Hg Hs). now apply RunEmpty with s. }
        destruct (failure (e :: l)) as [err|] eqn:Hf.
        { rewrite (run_unprocessed _ _ _ Hg Hs Hf).
          now apply RunUnprocessed with s (e :: l). }
        destruct (fit (np_arange (List.length (e :: l)))
                    (values risk_factor (e :: l))) as [err|model] eqn:Hfit.
        { rewrite (run_untrained _ _ _ Hg Hs ltac:(discriminate) Hf Hfit).
          now apply RunUntrained with s (e :: l). }
        rewrite (run_notified _ _ _ Hg Hs ltac:(discriminate) Hf Hfit).
        now apply RunNotified with s.
Qed.

End Runs.

(** [main] never lets an exception escape. *)
Lemma run_returns (net : network) : fst (run net) = inr tt.
Proof. destruct (run_cases net); reflexivity. Qed.

(** The stages entered by a run that reaches the forecast. *)
Lemma calls_notified (n : nat) (f : Q) (l : line) :
  calls (opening ++ forecasting n f ++ [Stdout l]) =
    [Fetch LOCATION; Process; Train; Predict (Qnat n); Notify LOCATION f].
Proof. reflexivity. Qed.

Lemma output_notified (n : nat) (f : Q) (l : line) :
  output (opening ++ forecasting n f ++ [Stdout l]) =
    [Fetching LOCATION; ProcessingData; TrainingModel; Forecasted f;
     SendingNotification; l].
Proof. reflexivity. Qed.

(** Inversion of a run that entered a given stage carrying a value: the
    run has the notified shape. *)
Lemma run_reaching_forecast (net : network) (c : stage) :
  In c (calls (snd (run net))) ->
  (exists x, c = Predict x) \/ (exists loc f, c = Notify loc f) ->
  exists s l model,
    net (GET API_ENDPOINT LOCATION) = Response s (Records l) /\
    is_error_status s = false /\
    l <> [] /\
    failure l = None /\
    fit (np_arange (List.length l)) (values risk_factor l) = inr model /\
    run net =
      (inr tt,
       opening ++ forecasting (List.length l)
                    (predict model (Qnat (List.length l))) ++
       [Stdout (notification_diagnostic
                  (net (POST NOTIFICATION_ENDPOINT
                          (mkAlert LOCATION
                             (predict model (Qnat (List.length l)))))))]).
Proof.
  intros Hin Hc.
  pose proof (run_cases net) as Hshape.
  inversion Hshape as [Hg Hrun|s b Hg Hs Hrun|s Hg Hs Hrun|s Hg Hs Hrun
                      |s l err Hg Hs Hf Hrun
                      |s l err Hg Hs Hne Hf Hfit Hrun
                      |s l model Hg Hs Hne Hf Hfit f Hrun];
    rewrite <- Hrun in Hin; cbn in Hin;
    try (exfalso;
         destruct Hc as [[x ->]|(loc & f & ->)];
         intuition discriminate).
  exists s, l, model. repeat split; assumption || reflexivity.
Qed.

(** ** The properties of the specification *)


(** C9.  For every input, be it [None], an array with elements that are
    not objects, or records with absent keys, [process_data] returns
    normally, and what it returns is either two sequences of equal length or
    the pair [(None, None)]: never one [None] beside a sequence, never two
    sequences of different lengths. *)
Theorem process_data_result_shape (raw_data : raw) (t : trace) :
  ((exists dates risks,
      fst (process_data raw_data t) = inr (Some dates, Some risks) /\
      len dates = len risks) \/
   fst (process_data raw_data t) = inr (None, None)) /\
  (forall dates, fst (process_data raw_data t) <> inr (Some dates, None)) /\
  (forall risks, fst (process_data raw_data t) <> inr (None, Some risks)) /\
  (forall dates risks,
     fst (process_data raw_data t) = inr (Some dates, Some risks) ->
     len dates = len risks).
Proof.
  assert (Hshape :
    (exists dates risks,
       fst (process_data raw_data t) = inr (Some dates, Some risks) /\
       len dates = len risks) \/
    fst (process_data raw_data t) = inr (None, None)).
  { destruct raw_data as [l|]; [|right; reflexivity].
    destruct (failure l) as [err|] eqn:Hf.
    - right. now rewrite (process_data_failure l err t Hf).
    - left. apply failure_complete in Hf.
      exists (np_array_dates (values date l)),
        (np_array_numbers (values risk_factor l)).
      rewrite (process_data_complete l t Hf). split; [reflexivity|].
      rewrite dates_length by assumption.
      unfold len, np_array_numbers. now rewrite risks_length. }
  split; [exact Hshape|].
  destruct Hshape as [(dates & risks & -> & Hlen)| ->]; repeat split;
    try discriminate.
  intros dates' risks' [= <- <-]. exact Hlen.
Qed.

(** C3 (missing field).  For every input sequence with at least one record
    that lacks [risk_factor], [process_data] returns [(None, None)]; and in
    the run that fetched this sequence the orchestrator stops after
    processing: only [fetch_climate_data] and [process_data] are entered
    ([train_model] and [send_notification] never are), the only request
    issued is the GET to the provider (no notification request), the last
    line printed is the processing-failure diagnostic, and the run ends
    normally. *)
Theorem missing_risk_factor_aborts (l : list element) :
  Exists lacks_risk_factor l ->
  (forall t, fst (process_data (Some l) t) = inr (None, None)) /\
  (forall net s,
     net (GET API_ENDPOINT LOCATION) = Response s (Records l) ->
     is_error_status s = false ->
     fst (run net) = inr tt /\
     calls (snd (run net)) = [Fetch LOCATION; Process] /\
     requests (snd (run net)) = [GET API_ENDPOINT LOCATION] /\
     last (output (snd (run net))) FetchFailed = ProcessingFailed).
Proof.
  intros Hl. apply lacking_is_incomplete in Hl.
  destruct (failure l) as [err|] eqn:Hf;
    [|apply failure_complete in Hf; congruence].
  split.
  - intros t. now rewrite (process_data_failure l err t Hf).
  - intros net s Hg Hs. rewrite (run_unprocessed net s l err Hg Hs Hf).
    repeat split.
Qed.

(** C4, amended.  For every run in which the data-provider request fails
    with a transport error or with an HTTP error status (400..599),
    [fetch_climate_data] returns [None] after a single request, and the
    orchestrator aborts before processing: [fetch_climate_data] is the only
    stage entered (neither [process_data], nor [train_model], nor
    [send_notification] is called), the GET is the only request of the run,
    and the run ends normally on the fetch-failure line. *)
Theorem fetch_failure_aborts (net : network) :
  request_raises (net (GET API_ENDPOINT LOCATION)) ->
  (forall t,
     fst (fetch_climate_data net LOCATION t) = inr None /\
     requests (snd (fetch_climate_data net LOCATION t)) =
       requests t ++ [GET API_ENDPOINT LOCATION]) /\
  fst (run net) = inr tt /\
  calls (snd (run net)) = [Fetch LOCATION] /\
  requests (snd (run net)) = [GET API_ENDPOINT LOCATION] /\
  last (output (snd (run net))) ProcessingData = FetchFailed.
Proof.
  intros [Hg|(s & b & Hg & Hs)].
  - split.
    + intros t. rewrite (fetch_unreachable net LOCATION t Hg).
      split; [reflexivity|]. cbn [snd]. now rewrite requests_app.
    + rewrite (run_unreachable net Hg). repeat split.
  - apply is_error_status_spec in Hs. split.
    + intros t. rewrite (fetch_error_status net LOCATION s b t Hg Hs).
      split; [reflexivity|]. cbn [snd]. now rewrite requests_app.
    + rewrite (run_error_status net s b Hg Hs). repeat split.
Qed.

(** C10.  When the provider answers successfully (a 2xx status) with an
    empty array, [fetch_climate_data] returns the empty list, which is not
    [None]; the orchestrator's truthiness test nevertheless takes the
    fetch-failure branch: the run prints the fetch-failure diagnostic and
    ends without entering [process_data], [train_model] or
    [send_notification], and without any request besides the GET. *)
Theorem empty_response_is_reported_as_fetch_failure (net : network) (s : Z) :
  net (GET API_ENDPOINT LOCATION) = Response s (Records []) ->
  (200 <= s < 300)%Z ->
  (forall t,
     fst (fetch_climate_data net LOCATION t) = inr (Some []) /\
     fst (fetch_climate_data net LOCATION t) <> inr None) /\
  run net =
    (inr tt,
     [Stdout (Fetching LOCATION); Call (Fetch LOCATION);
      Http (GET API_ENDPOINT LOCATION); Stdout FetchFailed]) /\
  calls (snd (run net)) = [Fetch LOCATION] /\
  requests (snd (run net)) = [GET API_ENDPOINT LOCATION].
Proof.
  intros Hg Hs. apply success_status_passes in Hs.
  split.
  - intros t. rewrite (fetch_records net LOCATION s [] t Hg Hs).
    split; [reflexivity|discriminate].
  - rewrite (run_empty net s Hg Hs). repeat split.
Qed.

(** C5, amended (notification failure is not fatal).  In every run that
    reaches the notification stage with a forecast [f], a transport failure
    or a response outside 200..299 from the notifier lets no exception out
    of [send_notification], and none out of [main]: the process terminates
    normally, with exit status 0.  When the failure is a transport error or
    an HTTP error status (400..599), the function traps the error and logs
    it: the last line printed is the corresponding diagnostic. *)
Theorem notification_failure_is_not_fatal (net : network) (f : Q) :
  In (Notify LOCATION f) (calls (snd (run net))) ->
  notification_fails (net (POST NOTIFICATION_ENDPOINT (mkAlert LOCATION f))) ->
  (forall t, fst (send_notification net LOCATION f t) = inr tt) /\
  fst (run net) = inr tt /\
  exit_status (fst (run net)) = 0%Z /\
  (net (POST NOTIFICATION_ENDPOINT (mkAlert LOCATION f)) = Unreachable ->
   last (output (snd (run net))) NotificationSent =
     OtherErrorNotification ConnectionError) /\
  (forall s b,
     net (POST NOTIFICATION_ENDPOINT (mkAlert LOCATION f)) = Response s b ->
     (400 <= s < 600)%Z ->
     last (output (snd (run net))) NotificationSent =
       HttpErrorNotification (HTTPError s)).
Proof.
  intros Hin Hfail.
  split; [intros t; now rewrite send_notification_step|].
  split; [apply run_returns|].
  split; [now rewrite run_returns|].
  destruct (run_reaching_forecast net _ Hin) as
    (s & l & model & Hg & Hs & Hne & Hf & Hfit & Hrun); [right; eauto|].
  rewrite Hrun in Hin. cbn [snd] in Hin. rewrite calls_notified in Hin.
  assert (Hfeq : predict model (Qnat (List.length l)) = f).
  { cbn in Hin. destruct Hin as [H|[H|[H|[H|[H|[]]]]]];
      try discriminate. now injection H. }
  rewrite Hrun, Hfeq. cbn [snd]. rewrite output_notified. cbn [last].
  split.
  - intros ->. reflexivity.
  - intros s' b' -> Hs'. apply is_error_status_spec in Hs'.
    cbn [notification_diagnostic]. now rewrite Hs'.
Qed.

(** *** Dates do not reach the model *)

Lemma failure_blind (l : list element) : failure (map blind l) = failure l.
Proof.
  induction l as [|e l IH]; [reflexivity|].
  destruct e as [[[dv|] [rv|]]|]; cbn; auto.
Qed.

Lemma risks_blind (l : list element) :
  values risk_factor (map blind l) = values risk_factor l.
Proof.
  induction l as [|e l IH]; [reflexivity|].
  destruct e as [[dv [rv|]]|]; cbn; unfold values in IH; now rewrite ?IH.
Qed.

Lemma train_model_length (d1 d2 : ndarray cell) (y : ndarray Q) (t : trace) :
  len d1 = len d2 -> train_model d1 y t = train_model d2 y t.
Proof. intros Hlen. run_py. fold (len d1) (len d2). now rewrite Hlen. Qed.

(** C6 (the dates do not matter).  Take two record sequences that agree
    once the contents of their [date] fields are erased: same length, same
    [risk_factor] values, arbitrary dates.  Then [process_data] hands the
    same risk values to [train_model], [train_model] returns the same model
    (slope and intercept) from the two processed series, as it does for any
    two date arrays of equal length, and the runs that fetch the two
    sequences are identical event by event: same forecast printed and same
    forecast sent. *)
Theorem forecast_ignores_dates (l1 l2 : list element) :
  map blind l1 = map blind l2 ->
  List.length l1 = List.length l2 /\
  values risk_factor l1 = values risk_factor l2 /\
  (forall (d1 d2 : ndarray cell) (y : ndarray Q) (t : trace),
     len d1 = len d2 -> train_model d1 y t = train_model d2 y t) /\
  (forall t,
     failure l1 = None ->
     exists d1 d2 y,
       fst (process_data (Some l1) t) = inr (Some d1, Some y) /\
       fst (process_data (Some l2) t) = inr (Some d2, Some y) /\
       forall t', train_model d1 y t' = train_model d2 y t') /\
  (forall net1 net2 s,
     net1 (GET API_ENDPOINT LOCATION) = Response s (Records l1) ->
     net2 (GET API_ENDPOINT LOCATION) = Response s (Records l2) ->
     (forall m, net1 (POST NOTIFICATION_ENDPOINT m) =
                net2 (POST NOTIFICATION_ENDPOINT m)) ->
     run net1 = run net2).
Proof.
  intros Hb.
  assert (Hlen : List.length l1 = List.length l2).
  { rewrite <- (length_map blind l1), <- (length_map blind l2). now rewrite Hb. }
  assert (Hy : values risk_factor l1 = values risk_factor l2).
  { rewrite <- (risks_blind l1), <- (risks_blind l2). now rewrite Hb. }
  assert (Hfail : failure l1 = failure l2).
  { rewrite <- (failure_blind l1), <- (failure_blind l2). now rewrite Hb. }
  split; [assumption|]. split; [assumption|].
  split; [exact train_model_length|].
  split.
  - intros t Hf1. assert (Hf2 : failure l2 = None) by congruence.
    apply failure_complete in Hf1, Hf2.
    exists (np_array_dates (values date l1)),
      (np_array_dates (values date l2)),
      (np_array_numbers (values risk_factor l1)).
    rewrite (process_data_complete l1 t Hf1), (process_data_complete l2 t Hf2).
    rewrite <- Hy. repeat split.
    intros t'. apply train_model_length.
    now rewrite !dates_length.
  - intros net1 net2 s Hg1 Hg2 Hpost.
    destruct (is_error_status s) eqn:Hs.
    { now rewrite (run_error_status net1 s _ Hg1 Hs),
                  (run_error_status net2 s _ Hg2 Hs). }
    destruct l1 as [|e1 l1].
    { destruct l2; [|discriminate].
      now rewrite (run_empty net1 s Hg1 Hs), (run_empty net2 s Hg2 Hs). }
    destruct (failure (e1 :: l1)) as [err|] eqn:Hf1.
    { now rewrite (run_unprocessed net1 s _ err Hg1 Hs Hf1),
                  (run_unprocessed net2 s _ err Hg2 Hs (eq_sym Hfail)). }
    assert (Hne2 : l2 <> []) by (destruct l2; discriminate).
    destruct (fit (np_arange (List.length (e1 :: l1)))
                (values risk_factor (e1 :: l1))) as [err|model] eqn:Hfit.
    { rewrite (run_untrained net1 s _ err Hg1 Hs ltac:(discriminate) Hf1 Hfit).
      rewrite Hlen, Hy in Hfit.
      now rewrite (run_untrained net2 s _ err Hg2 Hs Hne2 (eq_sym Hfail) Hfit). }
    rewrite (run_notified net1 s _ model Hg1 Hs ltac:(discriminate) Hf1 Hfit).
    rewrite Hlen, Hy in Hfit.
    rewrite (run_notified net2 s _ model Hg2 Hs Hne2 (eq_sym Hfail) Hfit).
    now rewrite Hlen, Hpost.
Qed.

(** *** The forecast position *)

(** C7.  In every run that reaches the forecast step, the observed series
    [(dates, risks)] returned by [process_data] has the length [n] of the
    fetched array, [train_model] returned a model fitted on the positions
    [0 .. n-1], the model is queried at position [n] and at no other
    position, and the single value [predict model n] obtained is the one
    passed to [send_notification] and carried by the request to the
    notification provider. *)
Theorem forecast_at_next_position (net : network) (x : Q) :
  In (Predict x) (calls (snd (run net))) ->
  exists s l dates risks model,
    net (GET API_ENDPOINT LOCATION) = Response s (Records l) /\
    (forall t, fst (process_data (Some l) t) = inr (Some dates, Some risks)) /\
    len dates = List.length l /\
    len risks = List.length l /\
    fit (map Qnat (seq 0 (len dates))) risks = inr model /\
    (forall t, fst (train_model dates risks t) = inr (Some model)) /\
    x = Qnat (len dates) /\
    calls (snd (run net)) =
      [Fetch LOCATION; Process; Train; Predict (Qnat (len dates));
       Notify LOCATION (predict model (Qnat (len dates)))] /\
    requests (snd (run net)) =
      [GET API_ENDPOINT LOCATION;
       POST NOTIFICATION_ENDPOINT
         (mkAlert LOCATION (predict model (Qnat (len dates))))].
Proof.
  intros Hin.
  destruct (run_reaching_forecast net _ Hin) as
    (s & l & model & Hg & Hs & Hne & Hf & Hfit & Hrun); [left; eauto|].
  pose proof Hf as Hc. apply failure_complete in Hc.
  pose proof (dates_length l Hc) as Hd.
  exists s, l, (np_array_dates (values date l)),
    (np_array_numbers (values risk_factor l)), model.
  split; [assumption|].
  split; [intros t; now rewrite (process_data_complete l t Hc)|].
  split; [assumption|].
  split; [now apply risks_length|].
  split; [fold (np_arange (len (np_array_dates (values date l))));
          now rewrite Hd|].
  split.
  { intros t. rewrite (train_model_fitted _ _ model); [reflexivity|].
    now rewrite Hd. }
  rewrite Hrun in Hin |- *. cbn [snd] in Hin |- *. rewrite Hd.
  rewrite calls_notified in Hin |- *.
  split; [|split; reflexivity].
  cbn in Hin. destruct Hin as [H|[H|[H|[H|[H|[]]]]]]; try discriminate.
  now injection H.
Qed.

(** * Further properties of the stages *)

(** ** [fetch_climate_data] *)

(** X1.  For every answer of the provider, [fetch_climate_data] returns
    normally after exactly one request, a GET to the provider's endpoint
    carrying the location it was given.  It returns an array exactly when
    the answer has a status outside 400..599 and that array as its body,
    and then prints nothing.  When the request fails in transport, or the
    status is in 400..599, or the body is not JSON, it returns [None] and
    prints exactly one diagnostic line. *)
Theorem fetch_climate_data_outcome (net : network) (location : string)
    (t : trace) :
  (exists v, fst (fetch_climate_data net location t) = inr v) /\
  requests (snd (fetch_climate_data net location t)) =
    requests t ++ [GET API_ENDPOINT location] /\
  calls (snd (fetch_climate_data net location t)) =
    calls t ++ [Fetch location] /\
  (forall l,
     fst (fetch_climate_data net location t) = inr (Some l) <->
     exists s,
       net (GET API_ENDPOINT location) = Response s (Records l) /\
       ~ (400 <= s < 600)%Z) /\
  (forall l,
     fst (fetch_climate_data net location t) = inr (Some l) ->
     output (snd (fetch_climate_data net location t)) = output t) /\
  (net (GET API_ENDPOINT location) = Unreachable \/
   (exists s b,
      net (GET API_ENDPOINT location) = Response s b /\
      (400 <= s < 600)%Z) \/
   (exists s, net (GET API_ENDPOINT location) = Response s Malformed) ->
   fst (fetch_climate_data net location t) = inr None /\
   exists d,
     output (snd (fetch_climate_data net location t)) = output t ++ [d]).
Proof.
  destruct (net (GET API_ENDPOINT location)) as [|s b] eqn:Hg.
  - rewrite (fetch_unreachable net location t Hg). cbn [fst snd].
    rewrite requests_app, calls_app, output_app.
    repeat split; eauto; try discriminate;
      try (eexists; reflexivity).
    intros (s & Hs & _). discriminate.
  - destruct (is_error_status s) eqn:Hs.
    + rewrite (fetch_error_status net location s b t Hg Hs). cbn [fst snd].
      rewrite requests_app, calls_app, output_app.
      repeat split; eauto; try discriminate;
      try (eexists; reflexivity).
      intros (s' & [= <- _] & Hs'). apply is_error_status_false in Hs'.
      congruence.
    + destruct b as [|l'].
      * rewrite (fetch_malformed net location s t Hg Hs). cbn [fst snd].
        rewrite requests_app, calls_app, output_app.
        repeat split; eauto; try discriminate;
      try (eexists; reflexivity).
        intros (s' & Hs' & _). discriminate.
      * rewrite (fetch_records net location s l' t Hg Hs). cbn [fst snd].
        rewrite requests_app, calls_app, output_app. cbn.
        rewrite app_nil_r.
        split; [eauto|]. split; [reflexivity|]. split; [reflexivity|].
        split; [|split; [reflexivity|]].
        { intros l. split.
          - intros [= <-]. exists s. split; [reflexivity|].
            now apply is_error_status_false.
          - intros (s' & [= _ <-] & _). reflexivity. }
        intros [H|[(s' & b' & [= <- _] & Hs')|(s' & [= _ H])]];
          try discriminate.
        apply is_error_status_spec in Hs'. congruence.
Qed.

(** ** [send_notification] *)

(** X2.  Whatever the notifier answers, [send_notification] returns
    normally after exactly one request, a POST to the notification endpoint
    whose message carries the location and the forecast it was given, and
    prints exactly one line; that line is the confirmation exactly when the
    notifier answered with a status outside 400..599. *)
Theorem send_notification_outcome (net : network) (location : string)
    (forecast : Q) (t : trace) :
  fst (send_notification net location forecast t) = inr tt /\
  requests (snd (send_notification net location forecast t)) =
    requests t ++ [POST NOTIFICATION_ENDPOINT (mkAlert location forecast)] /\
  exists d,
    output (snd (send_notification net location forecast t)) =
      output t ++ [d] /\
    (d = NotificationSent <->
     exists s b,
       net (POST NOTIFICATION_ENDPOINT (mkAlert location forecast)) =
         Response s b /\
       ~ (400 <= s < 600)%Z).
Proof.
  rewrite send_notification_step. cbn [fst snd].
  rewrite requests_app, output_app.
  split; [reflexivity|]. split; [reflexivity|].
  eexists. split; [reflexivity|].
  destruct (net (POST NOTIFICATION_ENDPOINT (mkAlert location forecast)))
    as [|s b]; cbn [notification_diagnostic].
  - split; [discriminate|]. intros (s & b & Hp & _). discriminate.
  - destruct (is_error_status s) eqn:Hs.
    + split; [discriminate|].
      intros (s' & b' & [= <- _] & Hs'). apply is_error_status_false in Hs'.
      congruence.
    + split; [|reflexivity]. intros _. exists s, b.
      split; [reflexivity|]. now apply is_error_status_false.
Qed.

(** ** [main] *)

(** X3.  Whatever the provider and the notifier answer, no exception
    escapes [main]: every run returns normally and the process exits with
    status 0. *)
Theorem main_always_exits_zero (net : network) :
  fst (run net) = inr tt /\ exit_status (fst (run net)) = 0%Z.
Proof.
  assert (Hr : fst (run net) = inr tt).
  { pose proof (run_cases net) as Hshape.
    inversion Hshape; reflexivity. }
  rewrite Hr. split; reflexivity.
Qed.

(** X4.  Every run issues the GET to the provider first and exactly once,
    and at most one notification: the requests of a run are the GET alone,
    or the GET followed by one POST to the notification endpoint whose
    message carries the program's location and the very forecast that was
    printed. *)
Theorem main_request_discipline (net : network) :
  requests (snd (run net)) = [GET API_ENDPOINT LOCATION] \/
  exists f,
    requests (snd (run net)) =
      [GET API_ENDPOINT LOCATION;
       POST NOTIFICATION_ENDPOINT (mkAlert LOCATION f)] /\
    In (Forecasted f) (output (snd (run net))).
Proof.
  pose proof (run_cases net) as Hshape.
  inversion Hshape as [Hg Hrun|s b Hg Hs Hrun|s Hg Hs Hrun|s Hg Hs Hrun
                      |s l err Hg Hs Hf Hrun
                      |s l err Hg Hs Hne Hf Hfit Hrun
                      |s l model Hg Hs Hne Hf Hfit f Hrun];
    cbn [snd]; try (left; reflexivity).
  right. exists f. split; [reflexivity|]. cbn. auto 10.
Qed.

(** X5.  The notification stage is gated by the three stages before it: a
    run enters [send_notification] exactly when the provider answered with
    a status outside 400..599 and a non-empty array in which every element
    is a record carrying both [date] and [risk_factor], and the estimator
    accepted the positions [0 .. n-1] and the risk values. *)
Theorem main_notifies_iff_trained (net : network) :
  (exists f, In (Notify LOCATION f) (calls (snd (run net)))) <->
  exists s l model,
    net (GET API_ENDPOINT LOCATION) = Response s (Records l) /\
    ~ (400 <= s < 600)%Z /\
    l <> [] /\
    forallb complete l = true /\
    fit (np_arange (List.length l)) (values risk_factor l) = inr model.
Proof.
  split.
  - intros [f Hin].
    destruct (run_reaching_forecast net _ Hin) as
      (s & l & model & Hg & Hs & Hne & Hf & Hfit & _); [right; eauto|].
    exists s, l, model. split; [assumption|].
    split; [now apply is_error_status_false|].
    split; [assumption|]. split; [now apply failure_complete|assumption].
  - intros (s & l & model & Hg & Hs & Hne & Hc & Hfit).
    apply is_error_status_false in Hs. apply failure_complete in Hc.
    rewrite (run_notified net s l model Hg Hs Hne Hc Hfit). cbn [snd].
    rewrite calls_notified. eexists. cbn. auto 10.
Qed.

(** X6.  A run that does not reach the notification stage has issued the
    GET and nothing else, and its last line names the stage that stopped
    it: the fetch-failure line when the fetched value is [None] or empty;
    otherwise the processing-failure line when [process_data] returned
    [(None, None)], and the training-failure line when it returned the two
    sequences. *)
Theorem main_abort_is_reported (net : network) :
  (forall f, ~ In (Notify LOCATION f) (calls (snd (run net)))) ->
  requests (snd (run net)) = [GET API_ENDPOINT LOCATION] /\
  (forall t v,
     fst (fetch_climate_data net LOCATION t) = inr v ->
     last (output (snd (run net))) ProcessingData =
       if truthy v then
         match fst (process_data v t) with
         | inr (Some _, Some _) => TrainingFailed
         | _ => ProcessingFailed
         end
       else FetchFailed).
Proof.
  intros Hno.
  pose proof (run_cases net) as Hshape.
  inversion Hshape as [Hg Hrun|s b Hg Hs Hrun|s Hg Hs Hrun|s Hg Hs Hrun
                      |s l err Hg Hs Hf Hrun
                      |s l err Hg Hs Hne Hf Hfit Hrun
                      |s l model Hg Hs Hne Hf Hfit f Hrun];
    cbn [snd] in Hno |- *.
  - split; [reflexivity|]. intros t v.
    rewrite (fetch_unreachable net _ _ Hg). now intros [= <-].
  - split; [reflexivity|]. intros t v.
    rewrite (fetch_error_status net _ _ _ _ Hg Hs). now intros [= <-].
  - split; [reflexivity|]. intros t v.
    rewrite (fetch_malformed net _ _ _ Hg Hs). now intros [= <-].
  - split; [reflexivity|]. intros t v.
    rewrite (fetch_records net _ _ _ _ Hg Hs). now intros [= <-].
  - split; [reflexivity|]. intros t v.
    rewrite (fetch_records net _ _ _ _ Hg Hs). intros [= <-].
    rewrite (process_data_failure l err _ Hf).
    destruct l; [discriminate|reflexivity].
  - split; [reflexivity|]. intros t v.
    rewrite (fetch_records net _ _ _ _ Hg Hs). intros [= <-].
    apply failure_complete in Hf. rewrite (process_data_complete l _ Hf).
    destruct l; [congruence|reflexivity].
  - exfalso. apply (Hno f). rewrite <- Hrun. cbn. auto 10.
Qed.

(** ** [process_data] *)


(** X8.  The first element that is not a complete record decides the
    failure of [process_data], whatever follows it: the result is
    [(None, None)] and exactly one line is printed, the generic processing
    error for an element that is not an object, and otherwise the
    missing-field diagnostic naming [date] when that key is absent, else
    [risk_factor]. *)
Theorem process_data_reports_first_bad_element (good rest : list element)
    (bad : element) (t : trace) :
  forallb complete good = true ->
  complete bad = false ->
  fst (process_data (Some (good ++ bad :: rest)) t) = inr (None, None) /\
  output (snd (process_data (Some (good ++ bad :: rest)) t)) =
    output t ++
    [match bad with
     | NonObject => ErrorProcessing TypeError
     | Object r =>
         match date r with
         | None => MissingField (KeyError "date")
         | Some _ => MissingField (KeyError "risk_factor")
         end
     end].
Proof.
  intros Hgood Hbad.
  assert (Hf : exists err,
             failure (good ++ bad :: rest) = Some err /\
             processing_diagnostic err =
               match bad with
               | NonObject => ErrorProcessing TypeError
               | Object r =>
                   match date r with
                   | None => MissingField (KeyError "date")
                   | Some _ => MissingField (KeyError "risk_factor")
                   end
               end).
  { rewrite (failure_after_complete good _ Hgood).
    destruct bad as [[[dv|] [rv|]]|]; try discriminate; cbn; eauto. }
  destruct Hf as (err & Hf & Hd).
  rewrite (process_data_failure _ err t Hf). cbn [fst snd].
  rewrite output_app, <- Hd. split; reflexivity.
Qed.

(** ** [train_model] *)

(** X9.  [train_model] never raises, whatever the estimator does.  It
    calls the estimator once, on the positions [0 .. n-1] built from the
    length of [dates] and on the risk values as given.  If the estimator
    returns a model, that model is returned and nothing is printed; if it
    raises, whatever the exception, the function returns [None] and prints
    exactly one line, the training error carrying that exception. *)
Theorem train_model_traps_estimator_errors (dates : ndarray cell)
    (risks : ndarray Q) (t : trace) :
  (exists v, fst (train_model dates risks t) = inr v) /\
  calls (snd (train_model dates risks t)) = calls t ++ [Train] /\
  requests (snd (train_model dates risks t)) = requests t /\
  (forall model,
     fit (map Qnat (seq 0 (len dates))) risks = inr model <->
     fst (train_model dates risks t) = inr (Some model)) /\
  (forall model,
     fst (train_model dates risks t) = inr (Some model) ->
     output (snd (train_model dates risks t)) = output t) /\
  (forall err,
     fit (map Qnat (seq 0 (len dates))) risks = inl err ->
     fst (train_model dates risks t) = inr None /\
     output (snd (train_model dates risks t)) =
       output t ++ [ErrorTraining err]).
Proof.
  fold (np_arange (len dates)).
  destruct (fit (np_arange (len dates)) risks) as [err|model] eqn:Hfit.
  - rewrite (train_model_failed dates risks err t Hfit). cbn [fst snd].
    rewrite calls_app, requests_app, output_app. cbn. rewrite app_nil_r.
    split; [eauto|]. split; [reflexivity|]. split; [reflexivity|].
    split; [intros model; split; discriminate|].
    split; [discriminate|].
    intros err' [= <-]. split; reflexivity.
  - rewrite (train_model_fitted dates risks model t Hfit). cbn [fst snd].
    rewrite calls_app, requests_app, output_app. cbn. rewrite !app_nil_r.
    split; [eauto|]. split; [reflexivity|]. split; [reflexivity|].
    split; [intros model'; split; congruence|].
    split; [reflexivity|discriminate].
Qed.

End Estimator.

(** * Concrete runs

    The counterexamples to the claims as stated, and one concrete input for
    each theorem that has a hypothesis.  The runs below use the exact
    estimator, except one that uses the estimator rejecting every
    input. *)



Lemma missing_risk_factor_aborts_witness :
  fst (process_data
         (Some [obs "2024-01-01" 1; Object (mkRecord (Some (TStr "2024-01-02")) None)])
         []) = inr (None, None) /\
  calls (snd (run exact_fit exact_predict
                (world
                   (Response 200
                      (Records [obs "2024-01-01" 1;
                                Object (mkRecord (Some (TStr "2024-01-02")) None)]))
                   (Response 200 Malformed)))) =
    [Fetch LOCATION; Process].
Proof.
  assert (Hl : Exists lacks_risk_factor
                 [obs "2024-01-01" 1;
                  Object (mkRecord (Some (TStr "2024-01-02")) None)]).
  { apply Exists_cons_tl, Exists_cons_hd. eexists. split; reflexivity. }
  destruct (missing_risk_factor_aborts exact_fit exact_predict _ Hl)
    as [Hp Hrun].
  split; [apply Hp|].
  apply (Hrun (world _ (Response 200 Malformed)) 200%Z eq_refl eq_refl).
Defined.

(** C4, as stated, fails: status 300 is outside 200..299, yet
    [raise_for_status] does not raise on it, [fetch_climate_data] returns
    the decoded records instead of [None], and the run goes on to process,
    train, forecast and notify. *)
Lemma fetch_accepts_status_300 :
  ~ (200 <= 300 < 300)%Z /\
  fetch_climate_data (world (Response 300 (Records sample)) Unreachable)
    LOCATION [] =
    (inr (Some sample),
     [Call (Fetch LOCATION); Http (GET API_ENDPOINT LOCATION)]) /\
  exists f,
    calls (snd (run exact_fit exact_predict
                  (world (Response 300 (Records sample)) Unreachable))) =
      [Fetch LOCATION; Process; Train; Predict 3; Notify LOCATION f].
Proof.
  split; [lia|]. split; [reflexivity|].
  eexists. vm_compute. reflexivity.
Qed.

Lemma fetch_failure_aborts_witness :
  calls (snd (run exact_fit exact_predict
                (world (Response 503 (Records sample)) Unreachable))) =
    [Fetch LOCATION] /\
  calls (snd (run exact_fit exact_predict (world Unreachable Unreachable))) =
    [Fetch LOCATION].
Proof.
  split.
  - apply (fetch_failure_aborts exact_fit exact_predict
             (world (Response 503 (Records sample)) Unreachable)).
    right. exists 503%Z, (Records sample). split; [reflexivity|lia].
  - apply (fetch_failure_aborts exact_fit exact_predict
             (world Unreachable Unreachable)).
    left. reflexivity.
Defined.

Lemma empty_response_is_reported_as_fetch_failure_witness :
  run exact_fit exact_predict
    (world (Response 200 (Records [])) (Response 200 Malformed)) =
    (inr tt,
     [Stdout (Fetching LOCATION); Call (Fetch LOCATION);
      Http (GET API_ENDPOINT LOCATION); Stdout FetchFailed]).
Proof.
  apply (empty_response_is_reported_as_fetch_failure exact_fit exact_predict
           (world (Response 200 (Records [])) (Response 200 Malformed)) 200%Z).
  - reflexivity.
  - lia.
Defined.

(** C5, as stated, fails on its logging part: the notifier's status 300 is
    outside 200..299, yet [raise_for_status] does not raise on it, so
    [send_notification] has no error to trap or log; the run prints the
    confirmation and no diagnostic. *)
Lemma notification_status_300_is_reported_as_sent :
  notification_fails (Response 300 Malformed) /\
  output
    (snd (run exact_fit exact_predict
            (world (Response 200 (Records [obs "2024-01-01" 5]))
               (Response 300 Malformed)))) =
    [Fetching LOCATION; ProcessingData; TrainingModel; Forecasted 5;
     SendingNotification; NotificationSent].
Proof.
  split; [|reflexivity].
  right. exists 300%Z, Malformed. split; [reflexivity|lia].
Qed.

Lemma notification_failure_is_not_fatal_witness :
  exit_status
    (fst (run exact_fit exact_predict
            (world (Response 200 (Records [obs "2024-01-01" 5])) Unreachable))) =
    0%Z /\
  exit_status
    (fst (run exact_fit exact_predict
            (world (Response 200 (Records [obs "2024-01-01" 5]))
               (Response 300 Malformed)))) = 0%Z.
Proof.
  split.
  - apply (notification_failure_is_not_fatal exact_fit exact_predict
             (world (Response 200 (Records [obs "2024-01-01" 5])) Unreachable)
             5).
    + vm_compute. auto 10.
    + left. reflexivity.
  - apply (notification_failure_is_not_fatal exact_fit exact_predict
             (world (Response 200 (Records [obs "2024-01-01" 5]))
                (Response 300 Malformed))
             5).
    + vm_compute. auto 10.
    + right. exists 300%Z, Malformed. split; [reflexivity|lia].
Defined.

Lemma forecast_ignores_dates_witness :
  run exact_fit exact_predict
    (world (Response 200 (Records sample)) (Response 200 Malformed)) =
  run exact_fit exact_predict
    (world
       (Response 200
          (Records [obs "1999-12-31" 1;
                    Object (mkRecord (Some (TNum 7)) (Some 2));
                    obs "" 3]))
       (Response 200 Malformed)).
Proof.
  refine (proj2 (proj2 (proj2 (proj2
            (forecast_ignores_dates exact_fit exact_predict sample
               [obs "1999-12-31" 1;
                Object (mkRecord (Some (TNum 7)) (Some 2));
                obs "" 3] eq_refl)))) _ _ 200%Z eq_refl eq_refl _).
  intros m. reflexivity.
Defined.

Lemma forecast_at_next_position_witness :
  exists s l dates risks model,
    world (Response 200 (Records sample)) Unreachable
      (GET API_ENDPOINT LOCATION) = Response s (Records l) /\
    len dates = List.length l /\
    (forall t, fst (train_model exact_fit dates risks t) = inr (Some model)) /\
    3 = Qnat (len dates).
Proof.
  destruct (forecast_at_next_position exact_fit exact_predict
              (world (Response 200 (Records sample)) Unreachable) 3)
    as (s & l & dates & risks & model & Hg & _ & Hd & _ & _ & Ht & Hx & _).
  - vm_compute. auto 10.
  - exists s, l, dates, risks, model. repeat split; assumption.
Defined.

Lemma main_abort_is_reported_witness :
  requests
    (snd (run failing_fit exact_predict
            (world (Response 200 (Records sample)) Unreachable))) =
    [GET API_ENDPOINT LOCATION] /\
  last
    (output
       (snd (run failing_fit exact_predict
               (world (Response 200 (Records sample)) Unreachable))))
    ProcessingData = TrainingFailed.
Proof.
  assert (Hno : forall f,
            ~ In (Notify LOCATION f)
                (calls
                   (snd (run failing_fit exact_predict
                           (world (Response 200 (Records sample))
                              Unreachable))))).
  { intros f. vm_compute. intuition discriminate. }
  destruct (main_abort_is_reported failing_fit exact_predict _ Hno)
    as [Hreq Hlast].
  split; [exact Hreq|].
  exact (Hlast [] (Some sample) eq_refl).
Defined.

Lemma process_data_reports_first_bad_element_witness :
  output
    (snd (process_data
            (Some ([obs "2024-01-01" 1] ++
                   Object (mkRecord None None) :: [NonObject])) [])) =
    output [] ++ [MissingField (KeyError "date")].
Proof.
  apply (process_data_reports_first_bad_element
           [obs "2024-01-01" 1] [NonObject] (Object (mkRecord None None)) []);
    reflexivity.
Defined.
